(** * Platypus: the MOOSE-to-MFEM adapter layer

    A shallow embedding of the member functions whose bodies are written in
    the headers of the adapter (MFEMProblem, platypus::Problem,
    platypus::ProblemBuilder, platypus::EquationSystemProblemBuilderInterface,
    MFEMMaterial and platypus::TimeDomainProblemOperator), and the properties
    they satisfy.

    C++ member functions are computations over the receiver object and a heap
    of the objects reached through pointers and references.  A computation
    returns, raises a MOOSE error, aborts the process or has undefined
    behaviour (a null or dangling pointer is dereferenced). *)

From Stdlib Require Import NArith ZArith String.
From Stdlib Require Import Floats.SpecFloat.
From stdpp Require Import base option strings gmap.

Local Open Scope string_scope.

(** ** C++ types, pointers and smart pointers *)

(** The name of a C++ class, possibly a template instance.  It only indexes
    pointer types, so that a pointer to an mfem::ODESolver and a pointer to a
    platypus::Problem are not confused. *)
Inductive cpp_type : Type :=
| class_ (name : string)
| template_ (name : string) (arg : cpp_type).

Definition address : Type := N.

(** A raw pointer [T *]; the null pointer is address 0. *)
Record ptr (T : cpp_type) : Type := Ptr { addr : address }.
Arguments Ptr {T} addr.
Arguments addr {T} p.

Definition nullptr {T : cpp_type} : ptr T := Ptr 0%N.

Definition is_null {T : cpp_type} (p : ptr T) : bool := (addr p =? 0)%N.

(** [std::shared_ptr<T>] and [std::unique_ptr<T>], reduced to the pointer they
    manage (reference counts play no role in the code below). *)
Record shared_ptr (T : cpp_type) : Type := SharedPtr { get : ptr T }.
Arguments SharedPtr {T} get.
Arguments get {T} s.

Record unique_ptr (T : cpp_type) : Type := UniquePtr { uget : ptr T }.
Arguments UniquePtr {T} uget.
Arguments uget {T} u.

(** [explicit operator bool] of a shared pointer: [get() != nullptr]. *)
Definition operator_bool {T : cpp_type} (s : shared_ptr T) : bool :=
  negb (is_null (get s)).

(** [std::move] of a by-value argument: the callee receives the pointer. *)
Definition move {T : cpp_type} (s : shared_ptr T) : shared_ptr T := s.

Definition double : Type := spec_float.
Definition unsigned_int : Type := N.
Definition int : Type := Z.

(** ** Outcomes and the computation monad *)

Inductive outcome (S A : Type) : Type :=
| Returns (a : A) (s : S)        (* normal return, in state [s] *)
| Raises (msg : string) (s : S)  (* mooseError: reported, state [s] left behind *)
| Aborts (msg : string)          (* MFEM_ABORT: the process is terminated *)
| Undefined.                     (* null or dangling pointer dereferenced *)
Arguments Returns {S A} a s.
Arguments Raises {S A} msg s.
Arguments Aborts {S A} msg.
Arguments Undefined {S A}.

Definition M (S A : Type) : Type := S -> outcome S A.

#[export] Instance M_ret {S : Type} : MRet (M S) :=
  fun A (a : A) (s : S) => Returns a s.

#[export] Instance M_bind {S : Type} : MBind (M S) :=
  fun A B (f : A -> M S B) (m : M S A) (s : S) =>
    match m s with
    | Returns a s' => f a s'
    | Raises msg s' => Raises msg s'
    | Aborts msg => Aborts msg
    | Undefined => Undefined
    end.

(** The state an outcome leaves behind, mapped through [f]. *)
Definition map_state {S S' A : Type} (f : S -> S') (o : outcome S A) : outcome S' A :=
  match o with
  | Returns a s => Returns a (f s)
  | Raises msg s => Raises msg (f s)
  | Aborts msg => Aborts msg
  | Undefined => Undefined
  end.

(** The state an outcome leaves behind, when the process is still there to
    have one: after a return and after a raised error. *)
Definition final_state {S A : Type} (o : outcome S A) : option S :=
  match o with
  | Returns _ s => Some s
  | Raises _ s => Some s
  | Aborts _ => None
  | Undefined => None
  end.

(** [mooseError(msg)] and [MFEM_ABORT(msg)]; neither returns. *)
Definition mooseError {S A : Type} (msg : string) : M S A :=
  fun s => Raises msg s.

Definition MFEM_ABORT {S : Type} (msg : string) : M S unit :=
  fun _ => Aborts msg.

(** ** What the headers take from elsewhere

    The types and member functions that the headers use and that are declared
    in files outside these sources: MOOSE's base classes, MFEM's classes, and
    the adapter's own equation_system.h, inputs.h, coefficients.h and
    problem_operator_interface.h.  A member function of
    platypus::EquationSystem is taken to act on the equation system it is
    called on, and may itself raise or abort. *)
Class Externals : Type := {
  (* MOOSE *)
  ExternalProblem : Type;
  isTransient : ExternalProblem -> bool;
  Direction : Type;
  MFEMGeneralUserObject : Type;
  SubdomainName : Type;
  InputParameters : Type;
  (* MFEM *)
  mfem_Device : Type;
  MPI_Comm : Type;
  mfem_TimeDependentOperator : Type;
  (* the adapter's headers that are not part of these sources *)
  PropertyManager : Type;
  BCMap : Type;
  Coefficients : Type;
  Outputs : Type;
  SolverOptions : Type;
  FECollections : Type;
  FESpaces : Type;
  ProblemOperatorInterface : Type;
  Subdomain : Type;
  EquationSystem : Type;
  (* platypus::EquationSystem's member functions *)
  EquationSystem_AddTrialVariableNameIfMissing :
    string -> EquationSystem -> outcome EquationSystem unit;
  EquationSystem_AddKernel :
    forall T : cpp_type,
      string -> shared_ptr (template_ "MFEMKernel" T) ->
      EquationSystem -> outcome EquationSystem unit;
  (* declared in time_domain_problem_operator.h, defined elsewhere *)
  GetTimeDerivativeNames : list string -> list string
}.

Definition mfem_ParMesh : cpp_type := class_ "mfem::ParMesh".
Definition mfem_ODESolver : cpp_type := class_ "mfem::ODESolver".
Definition mfem_BlockVector : cpp_type := class_ "mfem::BlockVector".
Definition mfem_Solver : cpp_type := class_ "mfem::Solver".
Definition mfem_NewtonSolver : cpp_type := class_ "mfem::NewtonSolver".
Definition mfem_Vector : cpp_type := class_ "mfem::Vector".
Definition mfem_ParGridFunction : cpp_type := class_ "mfem::ParGridFunction".
Definition platypus_Problem : cpp_type := class_ "platypus::Problem".
Definition platypus_EquationSystem : cpp_type := class_ "platypus::EquationSystem".
Definition platypus_Subdomain : cpp_type := class_ "platypus::Subdomain".
Definition MFEMKernel (T : cpp_type) : cpp_type := template_ "MFEMKernel" T.

(** ** Casting down from platypus::Problem

    What a cast from a pointer to a platypus::Problem down to a class derived
    from it depends on, and what the compiler's layout and the program's
    allocations fix: for a class [D] and the address of a platypus::Problem,
    the address of the object of class [D] that has this problem as its base
    subobject, if there is one.  The two addresses are the same when
    platypus::Problem is the first base of [D] and differ by the offset of
    the base otherwise.  No object lives at the null address. *)
Class Objects : Type := {
  derived_object : cpp_type -> address -> option address;
  derived_object_not_null :
    forall (D : cpp_type) (b a : address),
      derived_object D b = Some a -> a <> 0%N
}.

(** [static_cast<U *>(p)] for a pointer [p] to a platypus::Problem and a
    class [U] derived from it: a null pointer stays null; a pointer to the
    base of a [U] object becomes the pointer to that object; for a problem
    that is not the base of a [U] object the behaviour is undefined. *)
Definition static_cast `{Obj : Objects} {S : Type} (U : cpp_type)
    (p : ptr platypus_Problem) : M S (ptr U) :=
  fun s =>
    if is_null p then Returns nullptr s
    else match derived_object U (addr p) with
         | Some a => Returns (Ptr a) s
         | None => Undefined
         end.

(** Modelled from the spec: gridfunctions.h is not among the sources.  The
    grid function registry, which the spec lists among the registries the
    adapter maintains, maps the name of a grid function to the shared grid
    function registered under it. *)
Abbreviation GridFunctions := (gmap string (shared_ptr mfem_ParGridFunction)).

(** ** The heap *)

Section Heap.
Context `{Ext : Externals}.

(** The objects that the code below reaches through a pointer or a
    reference. *)
Inductive object : Type :=
| EquationSystemObj (es : EquationSystem)
| SubdomainObj (sd : Subdomain)
| VectorObj (v : list double).

(** The receiver of a member function and the heap. *)
Record Env (T : Type) : Type := mkEnv { this : T; heap : gmap address object }.
Arguments mkEnv {T} this heap.
Arguments this {T} e.
Arguments heap {T} e.

Definition set_heap {T : Type} (h : gmap address object) (e : Env T) : Env T :=
  mkEnv (this e) h.

(** [this], read from inside a member function. *)
Definition get_this {T : Type} : M (Env T) T :=
  fun e => Returns (this e) e.

(** [p->m(...)] for a member function [m] of platypus::EquationSystem, on the
    heap alone. *)
Definition call_on_heap {A : Type} (p : ptr platypus_EquationSystem)
    (m : M EquationSystem A) : M (gmap address object) A :=
  fun h =>
    if is_null p then Undefined
    else match h !! addr p with
         | Some (EquationSystemObj es) =>
             map_state (fun es' => <[addr p := EquationSystemObj es']> h) (m es)
         | _ => Undefined
         end.

(** The same call made from inside a member function of a [T]. *)
Definition call {T A : Type} (p : ptr platypus_EquationSystem)
    (m : M EquationSystem A) : M (Env T) A :=
  fun e => map_state (fun h => set_heap h e) (call_on_heap p m (heap e)).

(** The two member functions of the equation system that adding a kernel
    runs, one after the other. *)
Definition trial_name_then_kernel (T : cpp_type) (var_name : string)
    (kernel : shared_ptr (MFEMKernel T)) : M EquationSystem unit :=
  EquationSystem_AddTrialVariableNameIfMissing var_name;;
  EquationSystem_AddKernel T var_name kernel.

End Heap.

Arguments mkEnv {Ext T} this heap.
Arguments this {Ext T} e.
Arguments heap {Ext T} e.

(** ** MFEMProblem *)

Module MFEMProblem.
Section MFEMProblem.
Context `{Ext : Externals}.

(** Modelled from the spec: MFEMProblemData.h is not among the sources.
    [_properties] and [_eqn_system] are the members that MFEMProblem's header
    reads, the latter tested as a boolean and dereferenced with [->], as a
    shared pointer is; [_gridfunctions] is the problem's grid function
    registry. *)
Record MFEMProblemData : Type := mkProblemData {
  _properties : PropertyManager;
  _eqn_system : shared_ptr platypus_EquationSystem;
  _gridfunctions : GridFunctions
}.

(** An MFEMProblem: its ExternalProblem base and its own member. *)
Record t : Type := mk {
  base : ExternalProblem;
  _problem_data : MFEMProblemData
}.

Definition getProblemData : M (Env t) MFEMProblemData :=
  self ← get_this; mret (_problem_data self).

Definition getProperties : M (Env t) PropertyManager :=
  self ← get_this; mret (_properties (_problem_data self)).

Definition externalSolve : M (Env t) unit := mret tt.

Definition nlConverged (nl_sys_num : unsigned_int) : M (Env t) bool := mret true.

Definition syncSolutions (direction : Direction) : M (Env t) unit := mret tt.

Definition no_equation_system (var_name : string) : string :=
  "Cannot add kernel with name '" +:+ var_name +:+
  "' because there is no equation system.".

(** The protected template overload of addKernel. *)
Definition addKernel (T : cpp_type) (var_name : string)
    (kernel : shared_ptr (MFEMKernel T)) : M (Env t) unit :=
  pd ← getProblemData;
  if operator_bool (_eqn_system pd) then
    (pd ← getProblemData;
     call (get (_eqn_system pd))
       (EquationSystem_AddTrialVariableNameIfMissing var_name));;
    (pd ← getProblemData;
     call (get (_eqn_system pd))
       (EquationSystem_AddKernel T var_name (move kernel)))
  else
    mooseError (no_equation_system var_name).

(** The equation system of a problem, as a pointer. *)
Definition eqn_system_of (problem : t) : ptr platypus_EquationSystem :=
  get (_eqn_system (_problem_data problem)).

(** A grid function is registered under [name]. *)
Definition registered (name : string) (e : Env t) : Prop :=
  is_Some (_gridfunctions (_problem_data (this e)) !! name).

End MFEMProblem.
End MFEMProblem.

(** ** namespace platypus *)

Module platypus.

(** *** platypus::Problem *)
Module Problem.
Section Problem.
Context `{Ext : Externals}.

Record t : Type := mk {
  _pmesh : shared_ptr mfem_ParMesh;
  _bc_map : BCMap;
  _coefficients : Coefficients;
  _outputs : Outputs;
  _solver_options : SolverOptions;
  _ode_solver : unique_ptr mfem_ODESolver;
  _f : unique_ptr mfem_BlockVector;
  _jacobian_preconditioner : shared_ptr mfem_Solver;
  _jacobian_solver : shared_ptr mfem_Solver;
  _nonlinear_solver : shared_ptr mfem_NewtonSolver;
  _fecs : FECollections;
  _fespaces : FESpaces;
  _gridfunctions : GridFunctions;
  _device : mfem_Device;
  _comm : MPI_Comm;
  _myid : int;
  _num_procs : int
}.

(** [Problem() = default]: every pointer member has the initialiser
    [{nullptr}]; the members of class type are default-constructed by their
    own classes and the three of built-in type are left as they come, so all
    of these are arguments. *)
Definition ctor (bc_map : BCMap) (coefficients : Coefficients)
    (outputs : Outputs) (solver_options : SolverOptions)
    (fecs : FECollections) (fespaces : FESpaces) (gridfunctions : GridFunctions)
    (device : mfem_Device) (comm : MPI_Comm) (myid num_procs : int) : t :=
  {| _pmesh := SharedPtr nullptr;
     _bc_map := bc_map;
     _coefficients := coefficients;
     _outputs := outputs;
     _solver_options := solver_options;
     _ode_solver := UniquePtr nullptr;
     _f := UniquePtr nullptr;
     _jacobian_preconditioner := SharedPtr nullptr;
     _jacobian_solver := SharedPtr nullptr;
     _nonlinear_solver := SharedPtr nullptr;
     _fecs := fecs;
     _fespaces := fespaces;
     _gridfunctions := gridfunctions;
     _device := device;
     _comm := comm;
     _myid := myid;
     _num_procs := num_procs |}.

End Problem.
End Problem.

(** *** platypus::ProblemBuilder *)
Module ProblemBuilder.
Section ProblemBuilder.
Context `{Ext : Externals} `{Obj : Objects}.

(** [mfem::ConstantCoefficient], reduced to its constant. *)
Record ConstantCoefficient : Type := mkConstant { constant : double }.

(** 1.0 as a binary64 number: 2^52 * 2^-52. *)
Definition one : double := S754_finite false 4503599627370496 (-52).

Record t : Type := mk {
  _one_coef : ConstantCoefficient;
  _problem : shared_ptr platypus_Problem
}.

(** The protected constructor; [_one_coef] has its default initialiser. *)
Definition ctor (problem : ptr platypus_Problem) : t :=
  {| _one_coef := mkConstant one; _problem := SharedPtr problem |}.

Definition ReturnProblem : M (Env t) (shared_ptr platypus_Problem) :=
  self ← get_this; mret (_problem self).

Definition null_problem : string := "platypus::Problem instance is NULL.".

(** The helper template getter with its safety check. *)
Definition GetProblem (TDerivedProblem : cpp_type)
    : M (Env t) (ptr TDerivedProblem) :=
  self ← get_this;
  (if negb (operator_bool (_problem self))
   then MFEM_ABORT null_problem
   else mret tt);;
  static_cast TDerivedProblem (get (_problem self)).

End ProblemBuilder.
End ProblemBuilder.

(** *** platypus::EquationSystemProblemBuilderInterface *)
Module EquationSystemProblemBuilderInterface.

(** The interface: a class implements it by overriding the pure virtual
    const member function GetEquationSystem. *)
Class t (B : Type) : Type := {
  GetEquationSystem : B -> ptr platypus_EquationSystem
}.

Section Interface.
Context `{Ext : Externals} {B : Type} `{Builder : t B}.

Definition AddKernel (T : cpp_type) (var_name : string)
    (kernel : shared_ptr (MFEMKernel T)) : M (Env B) unit :=
  (self ← get_this;
   call (GetEquationSystem self)
     (EquationSystem_AddTrialVariableNameIfMissing var_name));;
  (self ← get_this;
   call (GetEquationSystem self)
     (EquationSystem_AddKernel T var_name (move kernel))).

End Interface.
End EquationSystemProblemBuilderInterface.

(** *** platypus::TimeDomainProblemOperator *)
Module TimeDomainProblemOperator.
Section TimeDomainProblemOperator.
Context `{Ext : Externals}.

(** Its two base classes; it has no member of its own. *)
Record t : Type := mk {
  time_dependent_operator : mfem_TimeDependentOperator;
  problem_operator_interface : ProblemOperatorInterface
}.

(** [X] and [dX_dt] are references to vectors on the heap. *)
Definition ImplicitSolve (dt : double) (X : ptr mfem_Vector)
    (dX_dt : ptr mfem_Vector) : M (Env t) unit := mret tt.

End TimeDomainProblemOperator.
End TimeDomainProblemOperator.

End platypus.

(** ** MFEMMaterial *)

Module MFEMMaterial.
Section MFEMMaterial.
Context `{Ext : Externals}.

(** Its MFEMGeneralUserObject base and its own member. *)
Record t : Type := mk {
  user_object : MFEMGeneralUserObject;
  blocks : list SubdomainName
}.

Definition execute : M (Env t) unit := mret tt.

Definition initialize : M (Env t) unit := mret tt.

Definition finalize : M (Env t) unit := mret tt.

(** [subdomain] is a reference to a subdomain on the heap. *)
Definition storeCoefficients (subdomain : ptr platypus_Subdomain)
    : M (Env t) unit := mret tt.

End MFEMMaterial.
End MFEMMaterial.

(** ** Registering variables

    MFEMProblem.C, which defines MFEMProblem::addGridFunction and
    MFEMProblem::addVariable, is not among the sources.  The header documents
    addGridFunction as adding one MFEM grid function to be used in the solve,
    and addVariable as setting a grid function, and its time derivative for
    transient problems; the spec has variables translated into grid functions
    and the grid functions kept in a registry.  The grid function built for a
    variable comes out of MOOSE's object factory and is a parameter here. *)

Module Registration.
Section Registration.
Context `{Ext : Externals}.
Import MFEMProblem.

Variable getGridFunction :
  string -> string -> InputParameters -> shared_ptr mfem_ParGridFunction.

(** Modelled from the spec: the registry's operation that puts a grid function
    under a name, in the registry of the problem data. *)
Definition register_gridfunction (name : string)
    (gf : shared_ptr mfem_ParGridFunction) : M (Env MFEMProblem.t) unit :=
  fun e =>
    let pd := _problem_data (this e) in
    Returns tt
      (mkEnv
         (mk (base (this e))
             (mkProblemData (_properties pd) (_eqn_system pd)
                (<[name := gf]> (_gridfunctions pd))))
         (heap e)).

(** Modelled from the spec: MFEMProblem::addGridFunction adds one grid
    function, under the variable's name. *)
Definition addGridFunction (var_type var_name : string)
    (parameters : InputParameters) : M (Env MFEMProblem.t) unit :=
  register_gridfunction var_name (getGridFunction var_type var_name parameters).

(** A range-based [for] loop over a vector. *)
Fixpoint for_each {S A : Type} (l : list A) (body : A -> M S unit) : M S unit :=
  match l with
  | nil => mret tt
  | a :: l' => body a;; for_each l' body
  end.

(** Modelled from the spec: MFEMProblem::addVariable sets a grid function for
    the variable and, for a transient problem, one for each of the time
    derivative names of the variable's name. *)
Definition addVariable (var_type var_name : string)
    (parameters : InputParameters) : M (Env MFEMProblem.t) unit :=
  addGridFunction var_type var_name parameters;;
  self ← get_this;
  if isTransient (base self) then
    for_each (GetTimeDerivativeNames (var_name :: nil))
      (fun name => addGridFunction var_type name parameters)
  else mret tt.

End Registration.
End Registration.

(** ** An instance of the externals

    The statements below hold for every instance of the externals; this one
    shows that their hypotheses can be met. *)

Module Sample.

(** equation_system.h is not among the sources.  In this instance an equation
    system is the trial variable names and the kernels, each under its
    variable name, added to it so far. *)
Record EqSys : Type := mkEqSys {
  trial_var_names : list string;
  kernels : list (string * address)
}.

Definition VectorContainsName (names : list string) (name : string) : bool :=
  bool_decide (name ∈ names).

(** In this instance the name is appended unless it is there. *)
Definition AddTrialVariableNameIfMissing (var_name : string) : M EqSys unit :=
  fun es =>
    Returns tt
      (if VectorContainsName (trial_var_names es) var_name then es
       else mkEqSys (trial_var_names es ++ var_name :: nil) (kernels es)).

(** In this instance the kernel is appended under the name. *)
Definition AddKernel (T : cpp_type) (var_name : string)
    (kernel : shared_ptr (template_ "MFEMKernel" T)) : M EqSys unit :=
  fun es =>
    Returns tt
      (mkEqSys (trial_var_names es)
         (kernels es ++ (var_name, addr (get kernel)) :: nil)).

(** In this instance the time derivative of [u] is called [du_dt]. *)
Definition GetTimeDerivativeName (name : string) : string :=
  "d" +:+ name +:+ "_dt".

(** The objects that the adapter only passes along are one-point types; the
    base of a problem is its transient flag. *)
#[export] Instance externals : Externals := {|
  ExternalProblem := bool;
  isTransient := fun transient => transient;
  Direction := bool;
  MFEMGeneralUserObject := unit;
  SubdomainName := string;
  InputParameters := unit;
  mfem_Device := unit;
  MPI_Comm := unit;
  mfem_TimeDependentOperator := unit;
  PropertyManager := unit;
  BCMap := unit;
  Coefficients := unit;
  Outputs := unit;
  SolverOptions := unit;
  FECollections := unit;
  FESpaces := unit;
  ProblemOperatorInterface := unit;
  Subdomain := unit;
  EquationSystem := EqSys;
  EquationSystem_AddTrialVariableNameIfMissing := AddTrialVariableNameIfMissing;
  EquationSystem_AddKernel := AddKernel;
  GetTimeDerivativeNames := map GetTimeDerivativeName
|}.

(** A builder whose operator's equation system lives at a known address. *)
Record Builder : Type := mkBuilder { equation_system : ptr platypus_EquationSystem }.

#[export] Instance builder_interface
    : platypus.EquationSystemProblemBuilderInterface.t Builder :=
  {| platypus.EquationSystemProblemBuilderInterface.GetEquationSystem := equation_system |}.

Definition es0 : EqSys := mkEqSys ("v" :: nil) nil.

Definition heap0 : gmap address object := {[ 8%N := EquationSystemObj es0 ]}.

(** A transient problem whose equation system is the one at address 8. *)
Definition with_equation_system : MFEMProblem.t :=
  MFEMProblem.mk true (MFEMProblem.mkProblemData tt (SharedPtr (Ptr 8%N)) ∅).

(** A steady problem without an equation system. *)
Definition without_equation_system : MFEMProblem.t :=
  MFEMProblem.mk false (MFEMProblem.mkProblemData tt (SharedPtr nullptr) ∅).

Definition a_kernel : shared_ptr (MFEMKernel (class_ "mfem::BilinearFormIntegrator")) :=
  SharedPtr (Ptr 16%N).

(** The problems in memory in this instance: at address 24 a
    platypus::SteadyStateProblem, whose platypus::Problem base comes first,
    and at address 48 a TwoBasesProblem, whose platypus::Problem base lies 16
    bytes into the object, at address 64. *)
Definition enclosing_object (D : cpp_type) (b : address) : option address :=
  match D with
  | class_ name =>
      if (String.eqb name "platypus::SteadyStateProblem" && (b =? 24)%N)%bool
      then Some 24%N
      else if (String.eqb name "TwoBasesProblem" && (b =? 64)%N)%bool
      then Some 48%N
      else None
  | template_ _ _ => None
  end.

#[export] Instance objects : Objects := {|
  derived_object := enclosing_object;
  derived_object_not_null :=
    ltac:(intros D b a; unfold enclosing_object; repeat case_match;
          intros [= <-]; done)
|}.

End Sample.

(** ** An instance whose equation system refuses some calls

    As the instance above, but AddTrialVariableNameIfMissing raises an error
    on the empty name and AddKernel raises one on a null kernel; it shows
    what adding a kernel does when a member function of the equation system
    fails. *)

Module Picky.

Definition AddTrialVariableNameIfMissing (var_name : string)
    : M Sample.EqSys unit :=
  fun es =>
    if bool_decide (var_name = "") then Raises "empty variable name" es
    else Sample.AddTrialVariableNameIfMissing var_name es.

Definition AddKernel (T : cpp_type) (var_name : string)
    (kernel : shared_ptr (template_ "MFEMKernel" T)) : M Sample.EqSys unit :=
  fun es =>
    if operator_bool kernel then Sample.AddKernel T var_name kernel es
    else Raises "null kernel" es.

#[export] Instance externals : Externals := {|
  ExternalProblem := bool;
  isTransient := fun transient => transient;
  Direction := bool;
  MFEMGeneralUserObject := unit;
  SubdomainName := string;
  InputParameters := unit;
  mfem_Device := unit;
  MPI_Comm := unit;
  mfem_TimeDependentOperator := unit;
  PropertyManager := unit;
  BCMap := unit;
  Coefficients := unit;
  Outputs := unit;
  SolverOptions := unit;
  FECollections := unit;
  FESpaces := unit;
  ProblemOperatorInterface := unit;
  Subdomain := unit;
  EquationSystem := Sample.EqSys;
  EquationSystem_AddTrialVariableNameIfMissing := AddTrialVariableNameIfMissing;
  EquationSystem_AddKernel := AddKernel;
  GetTimeDerivativeNames := map Sample.GetTimeDerivativeName
|}.

Definition heap0 : gmap address object := {[ 8%N := EquationSystemObj Sample.es0 ]}.

Definition with_equation_system : MFEMProblem.t :=
  MFEMProblem.mk true (MFEMProblem.mkProblemData tt (SharedPtr (Ptr 8%N)) ∅).

Definition null_kernel : shared_ptr (MFEMKernel (class_ "mfem::BilinearFormIntegrator")) :=
  SharedPtr nullptr.

End Picky.

(** * Properties *)

(** ** The monad and the heap *)

Section Lemmas.
Context `{Ext : Externals}.

Lemma bind_Returns {S A B : Type} (m : M S A) (f : A -> M S B) (s s' : S) (a : A) :
  m s = Returns a s' -> (m ≫= f) s = f a s'.
Proof. intros H. unfold mbind, M_bind. now rewrite H. Qed.

Lemma map_state_compose {S S' S'' A : Type} (f : S -> S') (g : S' -> S'')
    (o : outcome S A) :
  map_state g (map_state f o) = map_state (fun s => g (f s)) o.
Proof. now destruct o. Qed.

Lemma map_state_ext {S S' A : Type} (f g : S -> S') (o : outcome S A) :
  (forall s, f s = g s) -> map_state f o = map_state g o.
Proof. intros H. destruct o; simpl; now rewrite ?H. Qed.

(** Two calls in a row through the same pointer are one call of the two
    member functions in a row: the second call finds the equation system as
    the first one left it. *)
Lemma call_on_heap_seq {A B : Type} (p : ptr platypus_EquationSystem)
    (m1 : M EquationSystem A) (m2 : M EquationSystem B)
    (h : gmap address object) :
  (call_on_heap p m1 ≫= fun _ => call_on_heap p m2) h
  = call_on_heap p (m1 ≫= fun _ => m2) h.
Proof.
  unfold mbind, M_bind, call_on_heap.
  destruct (is_null p) eqn:Hnull; [reflexivity |].
  destruct (h !! addr p) as [[es | sd | v] |] eqn:Hlook; try reflexivity.
  destruct (m1 es) as [a es1 | msg es1 | msg |]; cbn [map_state];
    try reflexivity.
  rewrite lookup_insert_eq.
  apply map_state_ext. intros es2. apply insert_insert_eq.
Qed.

Lemma call_seq {T A B : Type} (p : ptr platypus_EquationSystem)
    (m1 : M EquationSystem A) (m2 : M EquationSystem B) (e : Env T) :
  map_state heap ((call p m1 ≫= fun _ => call p m2) e)
  = call_on_heap p (m1 ≫= fun _ => m2) (heap e).
Proof.
  rewrite <- call_on_heap_seq.
  unfold mbind, M_bind, call.
  destruct (call_on_heap p m1 (heap e)) as [a h1 | msg h1 | msg |];
    cbn [map_state]; try reflexivity.
  rewrite map_state_compose. cbn [set_heap heap].
  now destruct (call_on_heap p m2 h1).
Qed.

End Lemmas.

(** ** Adding kernels *)

Section Kernels.
Context `{Ext : Externals}.
Import MFEMProblem.

Lemma addKernel_unfold (T : cpp_type) (var_name : string)
    (kernel : shared_ptr (MFEMKernel T)) (e : Env MFEMProblem.t) :
  operator_bool (_eqn_system (_problem_data (this e))) = true ->
  addKernel T var_name kernel e
  = (call (eqn_system_of (this e))
       (EquationSystem_AddTrialVariableNameIfMissing var_name)
     ≫= fun _ =>
     call (eqn_system_of (this e))
       (EquationSystem_AddKernel T var_name kernel)) e.
Proof.
  intros Hsome. unfold addKernel, getProblemData, move.
  change ((get_this ≫= fun self => mret (_problem_data self)) ≫= ?k)
    with (fun s : Env MFEMProblem.t => k (_problem_data (this s)) s).
  cbv beta. rewrite Hsome.
  change ((get_this ≫= fun self => mret (_problem_data self)) ≫= ?k)
    with (fun s : Env MFEMProblem.t => k (_problem_data (this s)) s).
  unfold mbind, M_bind, call, eqn_system_of.
  now destruct (call_on_heap _ _ (heap e)).
Qed.

Lemma addKernel_absent (T : cpp_type) (var_name : string)
    (kernel : shared_ptr (MFEMKernel T)) (e : Env MFEMProblem.t) :
  operator_bool (_eqn_system (_problem_data (this e))) = false ->
  addKernel T var_name kernel e = Raises (no_equation_system var_name) e.
Proof.
  intros Hnone. unfold addKernel, getProblemData.
  change ((get_this ≫= fun self => mret (_problem_data self)) ≫= ?k)
    with (fun s : Env MFEMProblem.t => k (_problem_data (this s)) s).
  cbv beta. now rewrite Hnone.
Qed.

Lemma addKernel_heap (T : cpp_type) (var_name : string)
    (kernel : shared_ptr (MFEMKernel T)) (e : Env MFEMProblem.t) :
  operator_bool (_eqn_system (_problem_data (this e))) = true ->
  map_state heap (addKernel T var_name kernel e)
  = call_on_heap (eqn_system_of (this e))
      (trial_name_then_kernel T var_name kernel) (heap e).
Proof.
  intros Hsome. rewrite addKernel_unfold by exact Hsome. apply call_seq.
Qed.

(** Adding a kernel never writes to the problem itself. *)
Lemma addKernel_this (T : cpp_type) (var_name : string)
    (kernel : shared_ptr (MFEMKernel T)) (e : Env MFEMProblem.t) :
  map_state this (addKernel T var_name kernel e)
  = map_state (fun _ => this e) (addKernel T var_name kernel e).
Proof.
  destruct (operator_bool (_eqn_system (_problem_data (this e)))) eqn:Hb.
  - rewrite addKernel_unfold by exact Hb.
    unfold mbind, M_bind, call.
    destruct (call_on_heap _ _ (heap e)) as [a h1 | msg h1 | msg |];
      cbn [map_state]; try reflexivity.
    cbn [set_heap heap].
    now destruct (call_on_heap _ _ h1).
  - now rewrite addKernel_absent by exact Hb.
Qed.

Import platypus.EquationSystemProblemBuilderInterface.

Lemma AddKernel_heap {B : Type}
    `{Builder : platypus.EquationSystemProblemBuilderInterface.t B}
    (T : cpp_type) (var_name : string)
    (kernel : shared_ptr (MFEMKernel T)) (e : Env B) :
  map_state heap (AddKernel T var_name kernel e)
  = call_on_heap (GetEquationSystem (this e))
      (trial_name_then_kernel T var_name kernel) (heap e).
Proof.
  unfold AddKernel, move, trial_name_then_kernel.
  rewrite <- (call_seq (T := B)).
  f_equal.
  unfold mbind, M_bind, call, get_this.
  now destruct (call_on_heap _ _ (heap e)).
Qed.

End Kernels.

(** ** Registering variables *)

Section RegistrationLemmas.
Context `{Ext : Externals}.
Import MFEMProblem.

Variable getGridFunction :
  string -> string -> InputParameters -> shared_ptr mfem_ParGridFunction.

Lemma addGridFunction_registered (var_type var_name : string)
    (parameters : InputParameters) (e : Env MFEMProblem.t) :
  exists e',
    Registration.addGridFunction getGridFunction var_type var_name parameters e
    = Returns tt e'
    /\ base (this e') = base (this e)
    /\ registered var_name e'
    /\ (forall name, registered name e -> registered name e').
Proof.
  eexists. split; [reflexivity |]. unfold registered. cbn.
  split; [reflexivity |]. split.
  - rewrite lookup_insert_eq. now eexists.
  - intros name Hname. rewrite lookup_insert. now case_decide.
Qed.

Lemma for_each_addGridFunction (var_type : string)
    (parameters : InputParameters) (names : list string) :
  forall e : Env MFEMProblem.t,
  exists e',
    Registration.for_each names
      (fun name =>
         Registration.addGridFunction getGridFunction var_type name parameters) e
    = Returns tt e'
    /\ (forall name, name ∈ names -> registered name e')
    /\ (forall name, registered name e -> registered name e').
Proof.
  induction names as [| n names IH]; intros e.
  - exists e. split; [reflexivity |]. split; [| tauto].
    intros name Hin. inversion Hin.
  - destruct (addGridFunction_registered var_type n parameters e)
      as (e1 & Hrun1 & _ & Hn & Hold1).
    destruct (IH e1) as (e2 & Hrun2 & Hnames & Hold2).
    exists e2. split; [| split].
    + cbn [Registration.for_each]. now rewrite (bind_Returns _ _ _ _ _ Hrun1).
    + intros name Hin. apply elem_of_cons in Hin as [-> | Hin]; auto.
    + auto.
Qed.

End RegistrationLemmas.

(** ** The sample instance at work *)

Example GetProblem_of_null_builder :
  platypus.ProblemBuilder.GetProblem (Ext := Sample.externals)
    (Obj := Sample.objects) (class_ "platypus::SteadyStateProblem")
    (mkEnv (platypus.ProblemBuilder.ctor nullptr) Sample.heap0)
  = Aborts "platypus::Problem instance is NULL.".
Proof. reflexivity. Qed.

(** A problem whose platypus::Problem base comes first is returned at the
    stored address. *)
Example GetProblem_first_base :
  platypus.ProblemBuilder.GetProblem (Ext := Sample.externals)
    (Obj := Sample.objects) (class_ "platypus::SteadyStateProblem")
    (mkEnv (platypus.ProblemBuilder.ctor (Ptr 24%N)) Sample.heap0)
  = Returns (Ptr 24%N)
      (mkEnv (platypus.ProblemBuilder.ctor (Ptr 24%N)) Sample.heap0).
Proof. reflexivity. Qed.

(** A cast to a class that the stored problem is not an object of is
    undefined. *)
Example GetProblem_of_another_class :
  platypus.ProblemBuilder.GetProblem (Ext := Sample.externals)
    (Obj := Sample.objects) (class_ "TwoBasesProblem")
    (mkEnv (platypus.ProblemBuilder.ctor (Ptr 24%N)) Sample.heap0)
  = Undefined.
Proof. reflexivity. Qed.

Example ReturnProblem_of_builder :
  platypus.ProblemBuilder.ReturnProblem (Ext := Sample.externals)
    (mkEnv (platypus.ProblemBuilder.ctor (Ptr 24%N)) Sample.heap0)
  = Returns (SharedPtr (Ptr 24%N))
      (mkEnv (platypus.ProblemBuilder.ctor (Ptr 24%N)) Sample.heap0).
Proof. reflexivity. Qed.

(** The builder's AddKernel has no check of its own: without an equation
    system behind GetEquationSystem the behaviour is undefined. *)
Example AddKernel_of_null_builder :
  platypus.EquationSystemProblemBuilderInterface.AddKernel
    (Builder := Sample.builder_interface)
    (class_ "mfem::BilinearFormIntegrator") "u" Sample.a_kernel
    (mkEnv (Sample.mkBuilder nullptr) Sample.heap0)
  = Undefined.
Proof. reflexivity. Qed.

(** A trial variable name that is there already is not added again. *)
Example addKernel_known_name :
  MFEMProblem.addKernel (Ext := Sample.externals)
    (class_ "mfem::BilinearFormIntegrator") "v" Sample.a_kernel
    (mkEnv Sample.with_equation_system Sample.heap0)
  = Returns tt
      (mkEnv Sample.with_equation_system
         (<[8%N := @EquationSystemObj Sample.externals
                     (Sample.mkEqSys ("v" :: nil) (("v", 16%N) :: nil))]>
            Sample.heap0)).
Proof. reflexivity. Qed.

(** On a steady problem only the variable's own grid function is set. *)
Example addVariable_steady :
  map_state (fun e => dom (MFEMProblem._gridfunctions
                             (MFEMProblem._problem_data (this e))))
    (Registration.addVariable (Ext := Sample.externals)
       (fun _ _ _ => SharedPtr (Ptr 32%N)) "MFEMVariable" "u" tt
       (mkEnv Sample.without_equation_system Sample.heap0))
  = Returns tt {[ "u" ]}.
Proof. vm_compute. reflexivity. Qed.

Example addVariable_transient :
  map_state (fun e => MFEMProblem._gridfunctions
                        (MFEMProblem._problem_data (this e)) !! "du_dt")
    (Registration.addVariable (Ext := Sample.externals)
       (fun _ _ _ => SharedPtr (Ptr 32%N)) "MFEMVariable" "u" tt
       (mkEnv Sample.with_equation_system Sample.heap0))
  = Returns tt (Some (SharedPtr (Ptr 32%N))).
Proof. reflexivity. Qed.

(** * The claims *)

Import MFEMProblem.

(** C1. MFEMProblem::addKernel, the protected template overload.  If the
    problem data holds an equation system, the call returns and the equation
    system is left as AddTrialVariableNameIfMissing(var_name) followed by
    AddKernel(var_name, kernel) leave it: the trial variable name added when
    missing, the kernel registered under that name.  If it holds none, the
    call reports "Cannot add kernel with name '<var_name>' because there is no
    equation system." and the problem and the heap are as before. *)
Theorem addKernel_registers_or_reports `{Ext : Externals} (T : cpp_type)
    (var_name : string) (kernel : shared_ptr (MFEMKernel T))
    (e : Env MFEMProblem.t) :
  (operator_bool (_eqn_system (_problem_data (this e))) = true ->
   forall es es1 es2 : EquationSystem,
     heap e !! addr (eqn_system_of (this e)) = Some (EquationSystemObj es) ->
     EquationSystem_AddTrialVariableNameIfMissing var_name es = Returns tt es1 ->
     EquationSystem_AddKernel T var_name kernel es1 = Returns tt es2 ->
     addKernel T var_name kernel e
     = Returns tt
         (mkEnv (this e)
            (<[addr (eqn_system_of (this e)) := EquationSystemObj es2]> (heap e))))
  /\ (operator_bool (_eqn_system (_problem_data (this e))) = false ->
      addKernel T var_name kernel e = Raises (no_equation_system var_name) e).
Proof.
  split; [| apply addKernel_absent].
  intros Hsome es es1 es2 Hlook Htrial Hkernel.
  rewrite addKernel_unfold by exact Hsome.
  assert (Hnull : is_null (eqn_system_of (this e)) = false).
  { unfold operator_bool in Hsome. now apply negb_true_iff in Hsome. }
  unfold mbind, M_bind, call, call_on_heap.
  rewrite Hnull, Hlook, Htrial. cbn [map_state set_heap heap this].
  rewrite lookup_insert_eq, Hkernel. cbn [map_state set_heap this heap].
  now rewrite insert_insert_eq.
Qed.

Lemma addKernel_registers_or_reports_witness :
  addKernel (Ext := Sample.externals)
    (class_ "mfem::BilinearFormIntegrator") "u" Sample.a_kernel
    (mkEnv Sample.with_equation_system Sample.heap0)
  = Returns tt
      (mkEnv Sample.with_equation_system
         (<[8%N := @EquationSystemObj Sample.externals
                     (Sample.mkEqSys ("v" :: "u" :: nil) (("u", 16%N) :: nil))]>
            Sample.heap0))
  /\ addKernel (Ext := Sample.externals)
       (class_ "mfem::BilinearFormIntegrator") "u" Sample.a_kernel
       (mkEnv Sample.without_equation_system Sample.heap0)
     = Raises "Cannot add kernel with name 'u' because there is no equation system."
         (mkEnv Sample.without_equation_system Sample.heap0).
Proof.
  split.
  - apply (proj1 (addKernel_registers_or_reports (Ext := Sample.externals)
                    (class_ "mfem::BilinearFormIntegrator") "u" Sample.a_kernel
                    (mkEnv Sample.with_equation_system Sample.heap0))
             eq_refl Sample.es0 (Sample.mkEqSys ("v" :: "u" :: nil) nil));
      reflexivity.
  - apply (proj2 (addKernel_registers_or_reports (Ext := Sample.externals)
                    (class_ "mfem::BilinearFormIntegrator") "u" Sample.a_kernel
                    (mkEnv Sample.without_equation_system Sample.heap0))).
    reflexivity.
Defined.

(** C2. The wrapper solves nothing itself.  MFEMProblem::externalSolve and
    MFEMProblem::syncSolutions return with the problem and the heap as they
    were; TimeDomainProblemOperator::ImplicitSolve returns, for every time
    step and every pair of vectors, with the operator and the heap, and so
    the vector dX_dt refers to, as they were.  On a platypus::Problem the time
    integrator and the Newton solver are pointers to objects of MFEM's own
    classes mfem::ODESolver and mfem::NewtonSolver, both null on a problem
    that has just been constructed. *)
Theorem no_solving_in_the_wrapper `{Ext : Externals} :
  (forall e : Env MFEMProblem.t, externalSolve e = Returns tt e)
  /\ (forall (direction : Direction) (e : Env MFEMProblem.t),
        syncSolutions direction e = Returns tt e)
  /\ (forall (dt : double) (X dX_dt : ptr mfem_Vector)
             (e : Env platypus.TimeDomainProblemOperator.t),
        platypus.TimeDomainProblemOperator.ImplicitSolve dt X dX_dt e = Returns tt e
        /\ map_state (fun e' => heap e' !! addr dX_dt)
             (platypus.TimeDomainProblemOperator.ImplicitSolve dt X dX_dt e)
           = Returns tt (heap e !! addr dX_dt))
  /\ (forall problem : platypus.Problem.t,
        exists (ode_solver : unique_ptr (class_ "mfem::ODESolver"))
               (nonlinear_solver : shared_ptr (class_ "mfem::NewtonSolver")),
          platypus.Problem._ode_solver problem = ode_solver
          /\ platypus.Problem._nonlinear_solver problem = nonlinear_solver)
  /\ (forall bc_map coefficients outputs solver_options fecs fespaces
             gridfunctions device comm myid num_procs,
        let problem :=
          platypus.Problem.ctor bc_map coefficients outputs solver_options
            fecs fespaces gridfunctions device comm myid num_procs in
        uget (platypus.Problem._ode_solver problem) = nullptr
        /\ get (platypus.Problem._nonlinear_solver problem) = nullptr).
Proof.
  repeat split.
  intros problem. now eexists _, _.
Qed.

(** C6. MFEMMaterial's execute, initialize, finalize and default
    storeCoefficients return with every field of the material and the whole
    heap, the subdomain passed by reference included, as they were. *)
Theorem material_is_glue `{Ext : Externals} (e : Env MFEMMaterial.t)
    (subdomain : ptr platypus_Subdomain) :
  MFEMMaterial.execute e = Returns tt e
  /\ MFEMMaterial.initialize e = Returns tt e
  /\ MFEMMaterial.finalize e = Returns tt e
  /\ MFEMMaterial.storeCoefficients subdomain e = Returns tt e
  /\ map_state (fun e' => (MFEMMaterial.user_object (this e'),
                           MFEMMaterial.blocks (this e'),
                           heap e' !! addr subdomain))
       (MFEMMaterial.storeCoefficients subdomain e)
     = Returns tt (MFEMMaterial.user_object (this e),
                   MFEMMaterial.blocks (this e),
                   heap e !! addr subdomain).
Proof. repeat split. Qed.

(** C7. MFEMProblem::nlConverged returns true for every nonlinear system
    number, whatever the problem and the heap are, and changes neither. *)
Theorem nlConverged_always_true `{Ext : Externals} (nl_sys_num : unsigned_int)
    (e : Env MFEMProblem.t) :
  nlConverged nl_sys_num e = Returns true e.
Proof. reflexivity. Qed.

(** C8. ProblemBuilder::GetProblem<TDerivedProblem> aborts exactly when the
    stored problem pointer is null.  On a builder whose stored pointer is the
    non-null pointer it was constructed with, the abort is never reached;
    when the stored problem is the platypus::Problem base of a TDerivedProblem
    object the call returns the pointer to that object; and whenever the call
    returns, nothing has changed and the pointer returned is not null and
    points to the TDerivedProblem object that the stored problem is the base
    of (at the stored address when the base comes first in the object). *)
Theorem GetProblem_checked `{Ext : Externals} `{Obj : Objects}
    (TDerivedProblem : cpp_type) :
  (forall e : Env platypus.ProblemBuilder.t,
     (exists msg, platypus.ProblemBuilder.GetProblem TDerivedProblem e = Aborts msg)
     <-> get (platypus.ProblemBuilder._problem (this e)) = nullptr)
  /\ (forall (problem : ptr platypus_Problem) (e : Env platypus.ProblemBuilder.t),
        problem <> nullptr ->
        platypus.ProblemBuilder._problem (this e)
        = platypus.ProblemBuilder._problem (platypus.ProblemBuilder.ctor problem) ->
        (forall msg,
           platypus.ProblemBuilder.GetProblem TDerivedProblem e <> Aborts msg)
        /\ (forall a : address,
              derived_object TDerivedProblem (addr problem) = Some a ->
              platypus.ProblemBuilder.GetProblem TDerivedProblem e
              = Returns (Ptr a) e)
        /\ (forall (p : ptr TDerivedProblem) (e' : Env platypus.ProblemBuilder.t),
              platypus.ProblemBuilder.GetProblem TDerivedProblem e = Returns p e' ->
              e' = e
              /\ p <> nullptr
              /\ derived_object TDerivedProblem
                   (addr (get (platypus.ProblemBuilder._problem (this e))))
                 = Some (addr p))).
Proof.
  split.
  - intros [[one_coef [[a]]] h].
    unfold platypus.ProblemBuilder.GetProblem, mbind, M_bind, get_this,
      operator_bool, static_cast, is_null, nullptr.
    cbn. destruct (N.eqb_spec a 0) as [-> | Hne]; cbn.
    + split; [reflexivity | intros _; now eexists].
    + split; [| intros [= Heq]; contradiction].
      intros [msg Hmsg]. now destruct (derived_object TDerivedProblem a).
  - intros [a] [[one_coef [[b]]] h] Hne Hctor. cbn in Hctor.
    injection Hctor as ->.
    assert (Ha : (a =? 0)%N = false).
    { apply N.eqb_neq. intros ->. now apply Hne. }
    unfold platypus.ProblemBuilder.GetProblem, mbind, M_bind, get_this,
      operator_bool, static_cast, is_null, nullptr.
    cbn. rewrite Ha. cbn.
    destruct (derived_object TDerivedProblem a) as [a' |] eqn:Hobj.
    + split; [intros msg Hmsg; discriminate Hmsg |].
      split; [now intros a0 [= <-] |].
      intros [p] e' [= <- <-]. split; [reflexivity |].
      split; [| reflexivity].
      intros [= ->]. now apply (derived_object_not_null _ _ _ Hobj).
    + split; [intros msg Hmsg; discriminate Hmsg |].
      split; [intros a0 Ha0; discriminate Ha0 |].
      intros p e' Hret. discriminate Hret.
Qed.

Lemma GetProblem_checked_witness :
  platypus.ProblemBuilder.GetProblem (Ext := Sample.externals)
    (Obj := Sample.objects) (class_ "TwoBasesProblem")
    (mkEnv (platypus.ProblemBuilder.ctor (Ptr 64%N)) Sample.heap0)
  = Returns (Ptr 48%N) (mkEnv (platypus.ProblemBuilder.ctor (Ptr 64%N)) Sample.heap0).
Proof.
  refine (proj1 (proj2 (proj2 (GetProblem_checked (Ext := Sample.externals)
                                 (Obj := Sample.objects)
                                 (class_ "TwoBasesProblem"))
                          (Ptr 64%N)
                          (mkEnv (platypus.ProblemBuilder.ctor (Ptr 64%N))
                             Sample.heap0)
                          _ eq_refl))
            48%N eq_refl).
  intros H. discriminate H.
Defined.

(** C9. When the problem data holds an equation system and the builder's
    GetEquationSystem returns that same equation system, MFEMProblem::addKernel
    and EquationSystemProblemBuilderInterface::AddKernel leave the same heap
    behind, with the same outcome: that of calling, on the equation system,
    AddTrialVariableNameIfMissing(var_name) and then AddKernel(var_name,
    kernel), for every variable name and kernel. *)
Theorem addKernel_agrees_with_builder `{Ext : Externals} {B : Type}
    `{Builder : platypus.EquationSystemProblemBuilderInterface.t B}
    (T : cpp_type) (var_name : string) (kernel : shared_ptr (MFEMKernel T))
    (problem : MFEMProblem.t) (builder : B) (h : gmap address object) :
  operator_bool (_eqn_system (_problem_data problem)) = true ->
  platypus.EquationSystemProblemBuilderInterface.GetEquationSystem builder
  = eqn_system_of problem ->
  map_state heap (addKernel T var_name kernel (mkEnv problem h))
  = map_state heap
      (platypus.EquationSystemProblemBuilderInterface.AddKernel T var_name kernel
         (mkEnv builder h))
  /\ map_state heap (addKernel T var_name kernel (mkEnv problem h))
     = call_on_heap (eqn_system_of problem)
         (trial_name_then_kernel T var_name kernel) h.
Proof.
  intros Hsome Hsame.
  rewrite AddKernel_heap, addKernel_heap by exact Hsome.
  cbn [this heap]. now rewrite Hsame.
Qed.

Lemma addKernel_agrees_with_builder_witness :
  map_state heap
    (addKernel (Ext := Sample.externals)
       (class_ "mfem::BilinearFormIntegrator") "u" Sample.a_kernel
       (mkEnv Sample.with_equation_system Sample.heap0))
  = map_state heap
      (platypus.EquationSystemProblemBuilderInterface.AddKernel
         (Builder := Sample.builder_interface)
         (class_ "mfem::BilinearFormIntegrator") "u" Sample.a_kernel
         (mkEnv (Sample.mkBuilder (Ptr 8%N)) Sample.heap0)).
Proof.
  apply (addKernel_agrees_with_builder (Ext := Sample.externals)
           (Builder := Sample.builder_interface)
           (class_ "mfem::BilinearFormIntegrator") "u" Sample.a_kernel
           Sample.with_equation_system (Sample.mkBuilder (Ptr 8%N)) Sample.heap0);
    reflexivity.
Defined.

(** C5. MFEMProblem::addVariable, as its header documents it: the call
    returns with a grid function registered under the variable's name in the
    problem's grid function registry and, when the problem is transient, with
    a grid function registered under each name that GetTimeDerivativeNames
    gives for the variable's name. *)
Theorem addVariable_registers `{Ext : Externals}
    (getGridFunction :
       string -> string -> InputParameters -> shared_ptr mfem_ParGridFunction)
    (var_type var_name : string) (parameters : InputParameters)
    (e : Env MFEMProblem.t) :
  exists e',
    Registration.addVariable getGridFunction var_type var_name parameters e
    = Returns tt e'
    /\ registered var_name e'
    /\ (isTransient (base (this e)) = true ->
        forall name, name ∈ GetTimeDerivativeNames (var_name :: nil) ->
                     registered name e').
Proof.
  destruct (addGridFunction_registered getGridFunction var_type var_name
              parameters e) as (e1 & Hrun1 & Hbase & Hvar & _).
  unfold Registration.addVariable.
  rewrite (bind_Returns _ _ _ _ _ Hrun1).
  unfold mbind at 1. unfold M_bind, get_this. rewrite Hbase.
  destruct (isTransient (base (this e))).
  - destruct (for_each_addGridFunction getGridFunction var_type parameters
                (GetTimeDerivativeNames (var_name :: nil)) e1)
      as (e2 & Hrun2 & Hnames & Hold).
    exists e2. split; [exact Hrun2 |]. split; auto.
  - exists e1. split; [reflexivity |]. split; [exact Hvar |].
    intros Hfalse. discriminate Hfalse.
Qed.

Lemma addVariable_registers_witness :
  exists e',
    Registration.addVariable (Ext := Sample.externals)
      (fun _ _ _ => SharedPtr (Ptr 32%N)) "MFEMVariable" "u" tt
      (mkEnv Sample.with_equation_system Sample.heap0)
    = Returns tt e'
    /\ registered "u" e'
    /\ registered "du_dt" e'.
Proof.
  destruct (addVariable_registers (Ext := Sample.externals)
              (fun _ _ _ => SharedPtr (Ptr 32%N)) "MFEMVariable" "u" tt
              (mkEnv Sample.with_equation_system Sample.heap0))
    as (e' & Hrun & Hvar & Hdt).
  exists e'. split; [exact Hrun |]. split; [exact Hvar |].
  apply Hdt; [reflexivity |]. constructor.
Defined.

(** * Further properties *)

(** ** Where the outcomes leave the heap *)

Section Frames.
Context `{Ext : Externals}.
Import MFEMProblem.

Lemma final_state_map_state {S S' A : Type} (f : S -> S') (o : outcome S A) :
  final_state (map_state f o) = f <$> final_state o.
Proof. now destruct o. Qed.

(** A call that leaves a heap behind found an equation system behind a
    non-null pointer and put an equation system back in its place. *)
Lemma call_on_heap_final {A : Type} (p : ptr platypus_EquationSystem)
    (m : M EquationSystem A) (h h' : gmap address object) :
  final_state (call_on_heap p m h) = Some h' ->
  is_null p = false
  /\ exists es es',
       h !! addr p = Some (EquationSystemObj es)
       /\ final_state (m es) = Some es'
       /\ h' = <[addr p := EquationSystemObj es']> h.
Proof.
  unfold call_on_heap.
  destruct (is_null p); [discriminate |].
  destruct (h !! addr p) as [[es | sd | v] |] eqn:Hlook; try discriminate.
  rewrite final_state_map_state.
  destruct (final_state (m es)) as [es' |] eqn:Hm; [| discriminate].
  cbn. intros [= <-]. split; [reflexivity |]. now exists es, es'.
Qed.

End Frames.

(** ** With and without an equation system *)

(** With an equation system in place, adding a kernel is the two member
    functions run on it, and the outcome put back at its address. *)
Lemma addKernel_run `{Ext : Externals} (T : cpp_type) (var_name : string)
    (kernel : shared_ptr (MFEMKernel T)) (e : Env MFEMProblem.t)
    (es : EquationSystem) :
  operator_bool (_eqn_system (_problem_data (this e))) = true ->
  heap e !! addr (eqn_system_of (this e)) = Some (EquationSystemObj es) ->
  addKernel T var_name kernel e
  = map_state
      (fun es' =>
         mkEnv (this e)
           (<[addr (eqn_system_of (this e)) := EquationSystemObj es']> (heap e)))
      (trial_name_then_kernel T var_name kernel es).
Proof.
  intros Hsome Hlook.
  rewrite addKernel_unfold by exact Hsome.
  assert (Hnull : is_null (eqn_system_of (this e)) = false).
  { unfold operator_bool in Hsome. now apply negb_true_iff in Hsome. }
  unfold trial_name_then_kernel, mbind, M_bind, call, call_on_heap.
  rewrite Hnull, Hlook.
  destruct (EquationSystem_AddTrialVariableNameIfMissing var_name es)
    as [[] es1 | msg es1 | msg |]; cbn [map_state set_heap heap this];
    try reflexivity.
  rewrite lookup_insert_eq, !map_state_compose.
  apply map_state_ext. intros es2. cbn [set_heap this heap].
  now rewrite insert_insert_eq.
Qed.

(** X4. The builder's AddKernel has no check of its own.  Where the problem
    has no equation system and the builder's GetEquationSystem returns null,
    MFEMProblem::addKernel reports its error and leaves the heap as it was,
    while EquationSystemProblemBuilderInterface::AddKernel dereferences the
    null pointer: the two agree only when an equation system is there. *)
Theorem AddKernel_unchecked `{Ext : Externals} {B : Type}
    `{Builder : platypus.EquationSystemProblemBuilderInterface.t B}
    (T : cpp_type) (var_name : string) (kernel : shared_ptr (MFEMKernel T))
    (problem : MFEMProblem.t) (builder : B) (h : gmap address object) :
  operator_bool (_eqn_system (_problem_data problem)) = false ->
  is_null (platypus.EquationSystemProblemBuilderInterface.GetEquationSystem builder)
  = true ->
  platypus.EquationSystemProblemBuilderInterface.AddKernel T var_name kernel
    (mkEnv builder h)
  = Undefined
  /\ map_state heap (addKernel T var_name kernel (mkEnv problem h))
     = Raises (no_equation_system var_name) h
  /\ map_state heap (addKernel T var_name kernel (mkEnv problem h))
     <> map_state heap
          (platypus.EquationSystemProblemBuilderInterface.AddKernel T var_name
             kernel (mkEnv builder h)).
Proof.
  intros Hnone Hnull.
  assert (Hbuilder :
            platypus.EquationSystemProblemBuilderInterface.AddKernel T var_name
              kernel (mkEnv builder h) = Undefined).
  { unfold platypus.EquationSystemProblemBuilderInterface.AddKernel,
      mbind, M_bind, get_this, call, call_on_heap.
    cbn [this heap]. now rewrite Hnull. }
  rewrite Hbuilder, addKernel_absent by exact Hnone.
  cbn [map_state heap]. split; [reflexivity |]. split; [reflexivity |].
  intros Heq. discriminate Heq.
Qed.

Lemma AddKernel_unchecked_witness :
  platypus.EquationSystemProblemBuilderInterface.AddKernel
    (Ext := Sample.externals) (Builder := Sample.builder_interface)
    (class_ "mfem::BilinearFormIntegrator") "u" Sample.a_kernel
    (mkEnv (Sample.mkBuilder nullptr) Sample.heap0)
  = Undefined.
Proof.
  apply (AddKernel_unchecked (Ext := Sample.externals)
           (Builder := Sample.builder_interface)
           (class_ "mfem::BilinearFormIntegrator") "u" Sample.a_kernel
           Sample.without_equation_system (Sample.mkBuilder nullptr)
           Sample.heap0);
    reflexivity.
Defined.

(** ** When the equation system refuses *)

(** X5. MFEMProblem::addKernel stops at the first failure.  If
    AddTrialVariableNameIfMissing raises an error, addKernel raises that
    error, the equation system is left as that call left it, and AddKernel is
    never reached: whatever kernel was passed, the outcome is the same. *)
Theorem addKernel_stops_at_first_failure `{Ext : Externals} (T : cpp_type)
    (var_name : string) (kernel : shared_ptr (MFEMKernel T))
    (e : Env MFEMProblem.t) (es es1 : EquationSystem) (msg : string) :
  operator_bool (_eqn_system (_problem_data (this e))) = true ->
  heap e !! addr (eqn_system_of (this e)) = Some (EquationSystemObj es) ->
  EquationSystem_AddTrialVariableNameIfMissing var_name es = Raises msg es1 ->
  addKernel T var_name kernel e
  = Raises msg
      (mkEnv (this e)
         (<[addr (eqn_system_of (this e)) := EquationSystemObj es1]> (heap e)))
  /\ (forall (T' : cpp_type) (kernel' : shared_ptr (MFEMKernel T')),
        addKernel T' var_name kernel' e = addKernel T var_name kernel e).
Proof.
  intros Hsome Hlook Htrial.
  assert (Hany : forall (U : cpp_type) (k : shared_ptr (MFEMKernel U)),
             addKernel U var_name k e
             = Raises msg
                 (mkEnv (this e)
                    (<[addr (eqn_system_of (this e)) := EquationSystemObj es1]>
                       (heap e)))).
  { intros U k. rewrite (addKernel_run U var_name k e es Hsome Hlook).
    unfold trial_name_then_kernel, mbind, M_bind. now rewrite Htrial. }
  split; [apply Hany |]. intros T' kernel'. now rewrite !Hany.
Qed.

Lemma addKernel_stops_at_first_failure_witness :
  addKernel (Ext := Picky.externals)
    (class_ "mfem::BilinearFormIntegrator") "" Sample.a_kernel
    (mkEnv Picky.with_equation_system Picky.heap0)
  = Raises "empty variable name"
      (mkEnv Picky.with_equation_system
         (<[8%N := @EquationSystemObj Picky.externals Sample.es0]> Picky.heap0)).
Proof.
  apply (addKernel_stops_at_first_failure (Ext := Picky.externals)
           (class_ "mfem::BilinearFormIntegrator") "" Sample.a_kernel
           (mkEnv Picky.with_equation_system Picky.heap0)
           Sample.es0 Sample.es0 "empty variable name");
    reflexivity.
Defined.

(** X6. MFEMProblem::addKernel does not undo its first step.  If
    AddTrialVariableNameIfMissing returns and AddKernel then raises an error,
    addKernel raises that error and the equation system is left as the two
    calls left it, the first call's change included, not as it was found. *)
Theorem addKernel_no_rollback `{Ext : Externals} (T : cpp_type)
    (var_name : string) (kernel : shared_ptr (MFEMKernel T))
    (e : Env MFEMProblem.t) (es es1 es2 : EquationSystem) (msg : string) :
  operator_bool (_eqn_system (_problem_data (this e))) = true ->
  heap e !! addr (eqn_system_of (this e)) = Some (EquationSystemObj es) ->
  EquationSystem_AddTrialVariableNameIfMissing var_name es = Returns tt es1 ->
  EquationSystem_AddKernel T var_name kernel es1 = Raises msg es2 ->
  addKernel T var_name kernel e
  = Raises msg
      (mkEnv (this e)
         (<[addr (eqn_system_of (this e)) := EquationSystemObj es2]> (heap e))).
Proof.
  intros Hsome Hlook Htrial Hkernel.
  rewrite (addKernel_run T var_name kernel e es Hsome Hlook).
  unfold trial_name_then_kernel, mbind, M_bind. now rewrite Htrial, Hkernel.
Qed.

Lemma addKernel_no_rollback_witness :
  addKernel (Ext := Picky.externals)
    (class_ "mfem::BilinearFormIntegrator") "u" Picky.null_kernel
    (mkEnv Picky.with_equation_system Picky.heap0)
  = Raises "null kernel"
      (mkEnv Picky.with_equation_system
         (<[8%N := @EquationSystemObj Picky.externals
                     (Sample.mkEqSys ("v" :: "u" :: nil) nil)]>
            Picky.heap0)).
Proof.
  apply (addKernel_no_rollback (Ext := Picky.externals)
           (class_ "mfem::BilinearFormIntegrator") "u" Picky.null_kernel
           (mkEnv Picky.with_equation_system Picky.heap0)
           Sample.es0 (Sample.mkEqSys ("v" :: "u" :: nil) nil)
           (Sample.mkEqSys ("v" :: "u" :: nil) nil) "null kernel");
    reflexivity.
Defined.

(** ** Kernels in a row *)

(** X7. Two calls of MFEMProblem::addKernel in a row work on one equation
    system, the second on what the first left: on the heap they are one call,
    through the problem's pointer, of the four member functions in the order
    trial name, kernel, trial name, kernel. *)
Theorem addKernel_twice `{Ext : Externals} (T1 T2 : cpp_type)
    (name1 name2 : string) (kernel1 : shared_ptr (MFEMKernel T1))
    (kernel2 : shared_ptr (MFEMKernel T2)) (e : Env MFEMProblem.t) :
  operator_bool (_eqn_system (_problem_data (this e))) = true ->
  map_state heap
    ((addKernel T1 name1 kernel1 ≫= fun _ => addKernel T2 name2 kernel2) e)
  = call_on_heap (eqn_system_of (this e))
      (trial_name_then_kernel T1 name1 kernel1 ≫= fun _ =>
       trial_name_then_kernel T2 name2 kernel2)
      (heap e).
Proof.
  intros Hsome.
  rewrite <- call_on_heap_seq.
  pose proof (addKernel_heap T1 name1 kernel1 e Hsome) as Hfirst.
  pose proof (addKernel_this T1 name1 kernel1 e) as Hthis.
  unfold mbind, M_bind.
  destruct (addKernel T1 name1 kernel1 e) as [[] e1 | msg e1 | msg |];
    cbn [map_state] in Hfirst, Hthis; rewrite <- Hfirst;
    cbn [map_state]; try reflexivity.
  injection Hthis as Hthis.
  rewrite addKernel_heap by (now rewrite Hthis).
  now rewrite Hthis.
Qed.

Lemma addKernel_twice_witness :
  map_state heap
    ((addKernel (Ext := Sample.externals)
        (class_ "mfem::BilinearFormIntegrator") "u" Sample.a_kernel
      ≫= fun _ =>
      addKernel (class_ "mfem::LinearFormIntegrator") "u" (SharedPtr (Ptr 40%N)))
       (mkEnv Sample.with_equation_system Sample.heap0))
  = Returns tt
      (<[8%N := @EquationSystemObj Sample.externals
                  (Sample.mkEqSys ("v" :: "u" :: nil)
                     (("u", 16%N) :: ("u", 40%N) :: nil))]>
         Sample.heap0).
Proof.
  rewrite (addKernel_twice (Ext := Sample.externals)
             (class_ "mfem::BilinearFormIntegrator")
             (class_ "mfem::LinearFormIntegrator") "u" "u" Sample.a_kernel
             (SharedPtr (Ptr 40%N))
             (mkEnv Sample.with_equation_system Sample.heap0) eq_refl).
  vm_compute. reflexivity.
Defined.

(** ** What a return and what a report tell *)

(** X11. A return of MFEMProblem::addKernel means the kernel was added.  If
    the call returns, the problem had an equation system, both
    AddTrialVariableNameIfMissing and then AddKernel returned on it, and the
    state is the one before with the equation system they left put at its
    address. *)
Theorem addKernel_returned `{Ext : Externals} (T : cpp_type)
    (var_name : string) (kernel : shared_ptr (MFEMKernel T))
    (e e' : Env MFEMProblem.t) :
  addKernel T var_name kernel e = Returns tt e' ->
  operator_bool (_eqn_system (_problem_data (this e))) = true
  /\ exists es es1 es2 : EquationSystem,
       heap e !! addr (eqn_system_of (this e)) = Some (EquationSystemObj es)
       /\ EquationSystem_AddTrialVariableNameIfMissing var_name es
          = Returns tt es1
       /\ EquationSystem_AddKernel T var_name kernel es1 = Returns tt es2
       /\ e' = mkEnv (this e)
                 (<[addr (eqn_system_of (this e)) := EquationSystemObj es2]>
                    (heap e)).
Proof.
  intros Hret.
  destruct (operator_bool (_eqn_system (_problem_data (this e)))) eqn:Hb.
  2: { rewrite addKernel_absent in Hret by exact Hb. discriminate Hret. }
  split; [reflexivity |].
  assert (Hfinal : final_state
                     (call_on_heap (eqn_system_of (this e))
                        (trial_name_then_kernel T var_name kernel) (heap e))
                   = Some (heap e')).
  { rewrite <- addKernel_heap by exact Hb. now rewrite Hret. }
  apply call_on_heap_final in Hfinal as (_ & es & _ & Hlook & _ & _).
  rewrite (addKernel_run T var_name kernel e es Hb Hlook) in Hret.
  unfold trial_name_then_kernel, mbind, M_bind in Hret.
  destruct (EquationSystem_AddTrialVariableNameIfMissing var_name es)
    as [[] es1 | msg es1 | msg |] eqn:Htrial; try discriminate Hret.
  destruct (EquationSystem_AddKernel T var_name kernel es1)
    as [[] es2 | msg es2 | msg |] eqn:Hkernel; try discriminate Hret.
  cbn [map_state] in Hret. injection Hret as <-.
  now exists es, es1, es2.
Qed.

Lemma addKernel_returned_witness :
  exists es es1 es2 : Sample.EqSys,
    Sample.heap0 !! 8%N = Some (@EquationSystemObj Sample.externals es)
    /\ Sample.AddTrialVariableNameIfMissing "u" es = Returns tt es1
    /\ Sample.AddKernel (class_ "mfem::BilinearFormIntegrator") "u"
         Sample.a_kernel es1
       = Returns tt es2
    /\ es2 = Sample.mkEqSys ("v" :: "u" :: nil) (("u", 16%N) :: nil).
Proof.
  destruct (addKernel_returned (Ext := Sample.externals)
              (class_ "mfem::BilinearFormIntegrator") "u" Sample.a_kernel
              (mkEnv Sample.with_equation_system Sample.heap0)
              (mkEnv Sample.with_equation_system
                 (<[8%N := @EquationSystemObj Sample.externals
                             (Sample.mkEqSys ("v" :: "u" :: nil)
                                (("u", 16%N) :: nil))]>
                    Sample.heap0))
              eq_refl)
    as (_ & es & es1 & es2 & Hlook & Htrial & Hkernel & _).
  exists es, es1, es2. split; [exact Hlook |]. split; [exact Htrial |].
  split; [exact Hkernel |].
  injection Hlook as <-. injection Htrial as <-. now injection Hkernel as <-.
Defined.

Lemma append_cancel_l (p a b : string) : p +:+ a = p +:+ b -> a = b.
Proof.
  induction p as [| c p IH]; cbn; [trivial |].
  intros [= H]. now apply IH.
Qed.

Lemma length_append (s t : string) :
  String.length (s +:+ t) = String.length s + String.length t.
Proof. induction s as [| c s IH]; simpl; [reflexivity | now f_equal]. Qed.

Lemma append_cancel_r (t a b : string) : a +:+ t = b +:+ t -> a = b.
Proof.
  revert b. induction a as [| c a IH]; intros [| d b]; cbn; intros H.
  - reflexivity.
  - apply (f_equal String.length) in H. simpl in H.
    rewrite ?length_append in H. simpl in H. lia.
  - apply (f_equal String.length) in H. simpl in H.
    rewrite ?length_append in H. simpl in H. lia.
  - injection H as -> H. f_equal. now apply IH.
Qed.

(** X12. The report of MFEMProblem::addKernel names the variable.  Two calls
    on problems without an equation system that raise the same message were
    made with the same variable name. *)
Theorem addKernel_report_names_variable `{Ext : Externals} (T1 T2 : cpp_type)
    (name1 name2 : string) (kernel1 : shared_ptr (MFEMKernel T1))
    (kernel2 : shared_ptr (MFEMKernel T2)) (e1 e2 : Env MFEMProblem.t) :
  operator_bool (_eqn_system (_problem_data (this e1))) = false ->
  operator_bool (_eqn_system (_problem_data (this e2))) = false ->
  map_state (fun _ => tt) (addKernel T1 name1 kernel1 e1)
  = map_state (fun _ => tt) (addKernel T2 name2 kernel2 e2) ->
  name1 = name2.
Proof.
  intros Hnone1 Hnone2.
  rewrite !addKernel_absent by assumption.
  cbn [map_state]. intros [= Hmsg]. unfold no_equation_system in Hmsg.
  apply append_cancel_l in Hmsg. now apply append_cancel_r in Hmsg.
Qed.

Lemma addKernel_report_names_variable_witness : "u" = "u".
Proof.
  apply (addKernel_report_names_variable (Ext := Sample.externals)
           (class_ "mfem::BilinearFormIntegrator")
           (class_ "mfem::LinearFormIntegrator") "u" "u" Sample.a_kernel
           (SharedPtr (Ptr 40%N))
           (mkEnv Sample.without_equation_system Sample.heap0)
           (mkEnv Sample.without_equation_system ∅));
    reflexivity.
Defined.
